(** * DataLoaderFromMap: a dataset loader fed by a sampling function

    Shallow embedding of [data/from_map.py]: the class [DataLoaderFromMap],
    its constructor and its method [loadData].

    The Python object is a record of its attributes.  [loadData] runs in a
    state-and-exception monad: the state holds the loader object, the
    environment the sampler acts on (a random generator, say) and a trace of
    the calls made to the sampler; a raised exception ends the run and keeps
    the state reached so far.  The tensor framework is an interface
    ([Framework]); [loadData] is written once, over any implementation.

    Two things the class leans on are not in [data/from_map.py]: the base
    class [DatasetLoader] of [data/base.py], and [tensorflow].  The
    constructor is written over any base-class constructor, and
    [DatasetLoader__init__] is the one the spec describes; [list_tf] is a
    list model of the four framework operations, for the properties that
    are about the contents of the pipelines.

    The sampler is the caller's code.  In the first monad it acts on a
    world of its own, the loader kept apart; in [Shared] the loader is part
    of the one heap the sampler acts on, so that a sampler may assign the
    attributes loadData reads next.  [loadData_in_shared] relates the two:
    the first is the second at samplers that pass the loader on
    untouched. *)

From Stdlib Require Import ZArith String List Bool Lia PeanoNat.
Import ListNotations.
Open Scope Z_scope.

Set Implicit Arguments.

(** ** Python values and exceptions *)

(** The tuple [(rows, columns)] the code builds for [shape=...] and for
    [tf.zeros]. *)
Definition Shape : Type := (Z * Z)%type.

Inductive exn : Type :=
| TypeError (msg : string)
| ValueError (msg : string)
| InvalidArgumentError (msg : string)
| UserError (msg : string).

Inductive result (A : Type) : Type :=
| Ok (a : A)
| Raise (e : exn).

Arguments Ok {A} a.
Arguments Raise {A} e.

(** ** The base class *)

(** The attributes of [DatasetLoader], the base class imported from
    [data/base.py]. *)
Record DatasetLoader : Type := mkDatasetLoader {
  N_train : Z;
  N_test : Z;
  batch_size : Z
}.

(** Modelled from the spec: [DatasetLoader.__init__] lives in [data/base.py],
    which is not among the sources.  The spec calls the base class "the base
    class defining the (N_train, N_test, batch_size) contract" and says that
    there is no data validation: the constructor stores its three arguments
    and does not raise. *)
Definition DatasetLoader__init__ (n_train n_test bs : Z) : result DatasetLoader :=
  Ok (mkDatasetLoader n_train n_test bs).

Section Loader.

(** [World] is whatever the sampler reads and updates when it is called;
    [Arr] is the kind of array it returns. *)
Variables World Arr : Type.

(** A Python callable, as far as a call [f(shape=...)] can tell:
    [accepts_kw k] says whether a call passing one argument, by keyword [k],
    binds to the signature; [body] is what then runs.  The body acts on the
    world and may raise.  In the monad of this part the loader is kept
    apart from the world, out of the body's reach; [Shared] below puts the
    loader into the world, for samplers that hold it. *)
Record Callable : Type := mkCallable {
  accepts_kw : string -> bool;
  body : Shape -> World -> result Arr * World
}.

(** The objects a caller can pass as [get_X0]: [None], something that is
    not callable (an integer stands for those), or a callable. *)
Inductive PyObj : Type :=
| PyNone
| PyInt (z : Z)
| PyCallable (c : Callable).

(** ** The class *)

(** An instance of [DataLoaderFromMap]: the inherited attributes and the two
    of its own.  The coercion is the inheritance: [N_train self] reads the
    inherited attribute. *)
Record DataLoaderFromMap : Type := mkDataLoaderFromMap {
  super :> DatasetLoader;
  get_X0 : PyObj;
  dim : Z
}.

(** The arguments of a constructor call; [None] is an argument the caller
    left out. *)
Record InitArgs : Type := mkInitArgs {
  arg_N_train : option Z;
  arg_N_test : option Z;
  arg_batch_size : option Z;
  arg_get_X0 : option PyObj;
  arg_dim : option Z
}.

Definition no_args : InitArgs := mkInitArgs None None None None None.

Definition default {A : Type} (d : A) (o : option A) : A :=
  match o with
  | Some a => a
  | None => d
  end.

(** [DataLoaderFromMap.__init__], over the constructor of the base class. *)
Definition init_with (super_init : Z -> Z -> Z -> result DatasetLoader)
    (args : InitArgs) : result DataLoaderFromMap :=
  let n_train := default 100 (arg_N_train args) in
  let n_test := default 1000 (arg_N_test args) in
  let bs := default 512 (arg_batch_size args) in
  let g := default PyNone (arg_get_X0 args) in
  let d := default 1 (arg_dim args) in
  match super_init n_train n_test bs with
  | Raise e => Raise e
  | Ok base => Ok (mkDataLoaderFromMap base g d)
  end.

Definition DataLoaderFromMap__init__ : InitArgs -> result DataLoaderFromMap :=
  init_with DatasetLoader__init__.

(** ** The monad of [loadData] *)

Record State : Type := mkState {
  heap : DataLoaderFromMap;   (* the object [self] refers to *)
  world : World;              (* what the sampler acts on *)
  calls : list Shape          (* the sampler's invocations, oldest first *)
}.

Definition M (A : Type) : Type := State -> result A * State.

Definition ret {A : Type} (a : A) : M A := fun s => (Ok a, s).

Definition bind {A B : Type} (m : M A) (k : A -> M B) : M B :=
  fun s =>
    match m s with
    | (Ok a, s') => k a s'
    | (Raise e, s') => (Raise e, s')
    end.

Definition raise {A : Type} (e : exn) : M A := fun s => (Raise e, s).

(** A framework operation: it may raise, and touches nothing of the state. *)
Definition lift {A : Type} (r : result A) : M A := fun s => (r, s).

(** [self.x] *)
Definition attr {A : Type} (x : DataLoaderFromMap -> A) : M A :=
  fun s => (Ok (x (heap s)), s).

(** [f(kw=arg)]: a call of the object [f] with one keyword argument.  The
    invocation is recorded when the body is entered. *)
Definition call_kw (f : PyObj) (kw : string) (arg : Shape) : M Arr :=
  match f with
  | PyNone => raise (TypeError "'NoneType' object is not callable")
  | PyInt _ => raise (TypeError "'int' object is not callable")
  | PyCallable c =>
      if accepts_kw c kw then
        fun s =>
          let '(r, w) := body c arg (world s) in
          (r, mkState (heap s) w (calls s ++ [arg]))
      else raise (TypeError "got an unexpected keyword argument")
  end.

End Loader.

Arguments PyNone {World Arr}.
Arguments PyInt {World Arr} z.
Arguments no_args {World Arr}.
Arguments ret {World Arr A} a.
Arguments raise {World Arr A} e.
Arguments lift {World Arr A} r.

Notation "x <- m ;; k" := (bind m (fun x => k))
  (at level 61, m at next level, right associativity).

(** ** The framework *)

(** What [loadData] uses of [tensorflow]: [tf.zeros],
    [tf.data.Dataset.from_tensor_slices], [Dataset.batch] and
    [Dataset.prefetch], each of which may raise, and the constant
    [tf.data.AUTOTUNE]. *)
Class Framework (Arr : Type) : Type := mkFramework {
  Tensor : Type;
  Sliced : Type;
  Batched : Type;
  zeros : Shape -> result Tensor;
  from_tensor_slices : Arr * Tensor -> result Sliced;
  batch : Sliced -> Z -> result Batched;
  prefetch : Batched -> Z -> result Batched;
  AUTOTUNE : Z
}.

(** ** loadData *)

Section LoadData.

Context {World Arr : Type} {tf : Framework Arr}.

Definition loadData : M World Arr (Batched * Batched) :=
  g <- attr (@get_X0 World Arr) ;;
  n <- attr (fun self => N_train self) ;;
  d <- attr (@dim World Arr) ;;
  x <- call_kw g "shape" (n, d) ;;
  n0 <- attr (fun self => N_train self) ;;
  z <- lift (zeros (n0, 1)) ;;
  slices <- lift (from_tensor_slices (x, z)) ;;
  bs <- attr (fun self => batch_size self) ;;
  batched <- lift (batch slices bs) ;;
  ds <- lift (prefetch batched AUTOTUNE) ;;
  g' <- attr (@get_X0 World Arr) ;;
  n' <- attr (fun self => N_test self) ;;
  d' <- attr (@dim World Arr) ;;
  x' <- call_kw g' "shape" (n', d') ;;
  n0' <- attr (fun self => N_test self) ;;
  z' <- lift (zeros (n0', 1)) ;;
  slices' <- lift (from_tensor_slices (x', z')) ;;
  bs' <- attr (fun self => batch_size self) ;;
  batched' <- lift (batch slices' bs') ;;
  ds_test <- lift (prefetch batched' AUTOTUNE) ;;
  ret (ds, ds_test).

End LoadData.

(** One dataset of [loadData], from the attribute holding its number of
    rows: the ten steps [loadData] runs for [ds], and again for [ds_test].
    [loadData_two_builds] below shows that [loadData] is these two in a row. *)
Definition build {World Arr : Type} {tf : Framework Arr}
    (rows : DatasetLoader -> Z) : M World Arr Batched :=
  g <- attr (@get_X0 World Arr) ;;
  n <- attr (fun self => rows self) ;;
  d <- attr (@dim World Arr) ;;
  x <- call_kw g "shape" (n, d) ;;
  n0 <- attr (fun self => rows self) ;;
  z <- lift (zeros (n0, 1)) ;;
  slices <- lift (from_tensor_slices (x, z)) ;;
  bs <- attr (fun self => batch_size self) ;;
  batched <- lift (batch slices bs) ;;
  lift (prefetch batched AUTOTUNE).

(** The spec's words for one pipeline: the array [x] "paired with zeros",
    then "batched-and-prefetched".  This is the framework's part alone. *)
Definition paired_batched_prefetched {Arr : Type} {tf : Framework Arr}
    (x : Arr) (n bs : Z) : result Batched :=
  match zeros (n, 1) with
  | Raise e => Raise e
  | Ok z =>
      match from_tensor_slices (x, z) with
      | Raise e => Raise e
      | Ok slices =>
          match batch slices bs with
          | Raise e => Raise e
          | Ok batched => prefetch batched AUTOTUNE
          end
      end
  end.

(** ** A list model of the framework *)

(** [chunks fuel size l]: [l] cut into consecutive runs of [size] elements,
    the last one shorter when [size] does not divide the length.  [fuel]
    bounds the number of runs; the length of [l] is enough of it when
    [size] is positive. *)
Fixpoint chunks {A : Type} (fuel size : nat) (l : list A) : list (list A) :=
  match fuel with
  | O => []
  | S fuel' =>
      match l with
      | [] => []
      | _ :: _ => firstn size l :: chunks fuel' size (skipn size l)
      end
  end.

Section ListFramework.

(** [Slice] is a row of the sampled array (what slicing along its first axis
    gives), [elt] the scalars of the tensor [tf.zeros] builds. *)
Variables Slice elt : Type.
Variable zero : elt.

(** Modelled from the spec: [tf.zeros] is the framework's, not among the
    sources.  [tf.zeros((n, m))] is [n] rows of [m] zeros; a negative
    dimension raises. *)
Definition list_zeros (shape : Shape) : result (list (list elt)) :=
  let '(n, m) := shape in
  if (n <? 0) || (m <? 0)
  then Raise (InvalidArgumentError "Dimension must be >= 0")
  else Ok (repeat (repeat zero (Z.to_nat m)) (Z.to_nat n)).

(** Modelled from the spec: [tf.data.Dataset.from_tensor_slices] is the
    framework's, not among the sources.  [from_tensor_slices((x, z))] is the
    sequence of the rows of [x], each "paired with" the row of [z] at the
    same place; the two must have the same number of rows. *)
Definition list_from_tensor_slices (c : list Slice * list (list elt))
    : result (list (Slice * list elt)) :=
  let '(x, z) := c in
  if Nat.eqb (length x) (length z)
  then Ok (combine x z)
  else Raise (ValueError "Dimensions are not compatible").

(** Modelled from the spec: [Dataset.batch] is the framework's, not among
    the sources.  [ds.batch(bs)], with [drop_remainder] left at [False]:
    every [bs] consecutive elements are stacked, component by component,
    and what is left at the end makes a last, smaller batch; [bs] must be
    positive. *)
Definition list_batch (ds : list (Slice * list elt)) (bs : Z)
    : result (list (list Slice * list (list elt))) :=
  if bs <=? 0
  then Raise (InvalidArgumentError "Batch size must be greater than zero")
  else Ok (map (@split Slice (list elt)) (chunks (length ds) (Z.to_nat bs) ds)).

(** Modelled from the spec: [Dataset.prefetch] is the framework's, not
    among the sources.  [ds.prefetch(buf)] yields the same elements, in the
    same order; [buf] is a buffer size, or [list_AUTOTUNE]. *)
Definition list_AUTOTUNE : Z := -1.

Definition list_prefetch (ds : list (list Slice * list (list elt))) (buf : Z)
    : result (list (list Slice * list (list elt))) :=
  if buf <? list_AUTOTUNE
  then Raise (InvalidArgumentError "buffer_size must be >= 0 or AUTOTUNE")
  else Ok ds.

(** Modelled from the spec: [tensorflow] is an external package, and none of
    it is among the sources.  The spec says that [loadData] produces
    "batched-and-prefetched sequences" over the sampled array "paired with
    zeros"; here a dataset is the sequence of its elements, and the four
    operations above do what the framework documents for them. *)
#[local] Instance list_tf : Framework (list Slice) := {|
  Tensor := list (list elt);
  Sliced := list (Slice * list elt);
  Batched := list (list Slice * list (list elt));
  zeros := list_zeros;
  from_tensor_slices := list_from_tensor_slices;
  batch := list_batch;
  prefetch := list_prefetch;
  AUTOTUNE := list_AUTOTUNE
|}.

(** The elements of a batched dataset, batches undone. *)
Definition unbatch (ds : list (list Slice * list (list elt)))
    : list Slice * list (list elt) :=
  (concat (map fst ds), concat (map snd ds)).

End ListFramework.

(** ** Reading the claims *)

(** [ceil_div n k] is the least [q] with [n <= q * k], for [k > 0]. *)
Definition ceil_div (n k : Z) : Z := (n + k - 1) / k.

(** The shapes of the two sampler calls of one [loadData]. *)
Definition train_shape {World Arr : Type} (self : DataLoaderFromMap World Arr) : Shape :=
  (N_train self, dim self).

Definition test_shape {World Arr : Type} (self : DataLoaderFromMap World Arr) : Shape :=
  (N_test self, dim self).

(** ** A concrete loader *)

(** A sampler over a counter: every entry of the array is the number of
    calls made before, so two calls never return the same array. *)
Definition count_sampler : Callable nat (list (list Z)) :=
  mkCallable
    (fun kw => String.eqb kw "shape")
    (fun shape w =>
       (Ok (repeat (repeat (Z.of_nat w) (Z.to_nat (snd shape))) (Z.to_nat (fst shape))),
        S w)).

Definition tfZ : Framework (list (list Z)) := list_tf (list Z) 0.

Definition loader_5_3 : DataLoaderFromMap nat (list (list Z)) :=
  mkDataLoaderFromMap (mkDatasetLoader 5 3 2) (PyCallable count_sampler) 2.


Definition start {World Arr : Type} (self : DataLoaderFromMap World Arr) (w : World)
    : State World Arr :=
  mkState self w [].


(** ** Reading the failures of loadData *)


(** ** The loader on a heap the sampler can reach *)

(** In the monad above the sampler acts on a world of its own, and the
    loader is out of its reach.  A Python callable can hold the loader and
    assign its attributes while loadData runs.  [Shared] is loadData once
    more, over one heap [World] that holds everything, the loader included:
    [self] reads the loader out of the heap, every [self.x] goes through it
    at the moment the code evaluates it, and the sampler's body may leave
    any heap at all. *)
Module Shared.

Section SharedLoader.

Variables World Arr : Type.

(** The object [self] refers to, in a given heap. *)
Variable self : World -> DataLoaderFromMap World Arr.

Context {tf : Framework Arr}.

Record State : Type := mkState {
  world : World;              (* the heap, the loader in it *)
  calls : list Shape          (* the sampler's invocations, oldest first *)
}.

Definition M (A : Type) : Type := State -> result A * State.

Definition ret {A : Type} (a : A) : M A := fun s => (Ok a, s).

Definition bind {A B : Type} (m : M A) (k : A -> M B) : M B :=
  fun s =>
    match m s with
    | (Ok a, s') => k a s'
    | (Raise e, s') => (Raise e, s')
    end.

Definition raise {A : Type} (e : exn) : M A := fun s => (Raise e, s).

Definition lift {A : Type} (r : result A) : M A := fun s => (r, s).

(** [self.x], read in the heap as it is now. *)
Definition attr {A : Type} (x : DataLoaderFromMap World Arr -> A) : M A :=
  fun s => (Ok (x (self (world s))), s).

(** [f(kw=arg)]; the heap after the call is the one the body left. *)
Definition call_kw (f : PyObj World Arr) (kw : string) (arg : Shape) : M Arr :=
  match f with
  | PyNone => raise (TypeError "'NoneType' object is not callable")
  | PyInt _ => raise (TypeError "'int' object is not callable")
  | PyCallable c =>
      if accepts_kw c kw then
        fun s =>
          let '(r, w) := body c arg (world s) in
          (r, mkState w (calls s ++ [arg]))
      else raise (TypeError "got an unexpected keyword argument")
  end.

Declare Scope shared_scope.

Notation "x <- m ;; k" := (bind m (fun x => k))
  (at level 61, m at next level, right associativity) : shared_scope.

Local Open Scope shared_scope.

Definition loadData : M (Batched * Batched) :=
  g <- attr (@get_X0 World Arr) ;;
  n <- attr (fun self => N_train self) ;;
  d <- attr (@dim World Arr) ;;
  x <- call_kw g "shape" (n, d) ;;
  n0 <- attr (fun self => N_train self) ;;
  z <- lift (zeros (n0, 1)) ;;
  slices <- lift (from_tensor_slices (x, z)) ;;
  bs <- attr (fun self => batch_size self) ;;
  batched <- lift (batch slices bs) ;;
  ds <- lift (prefetch batched AUTOTUNE) ;;
  g' <- attr (@get_X0 World Arr) ;;
  n' <- attr (fun self => N_test self) ;;
  d' <- attr (@dim World Arr) ;;
  x' <- call_kw g' "shape" (n', d') ;;
  n0' <- attr (fun self => N_test self) ;;
  z' <- lift (zeros (n0', 1)) ;;
  slices' <- lift (from_tensor_slices (x', z')) ;;
  bs' <- attr (fun self => batch_size self) ;;
  batched' <- lift (batch slices' bs') ;;
  ds_test <- lift (prefetch batched' AUTOTUNE) ;;
  ret (ds, ds_test).

(** A callable that leaves the loader as it is, whatever else it does to
    the heap. *)
Definition leaves_loader (c : Callable World Arr) : Prop :=
  forall shape w, self (snd (body c shape w)) = self w.

End SharedLoader.

End Shared.

(** The monad of the first part, seen in [Shared]: the heap is the loader
    next to the sampler's world, and every callable is one that passes the
    loader on untouched. *)
Definition apart_callable {World Arr : Type} (c : Callable World Arr)
    : Callable (DatasetLoader * Z * World) Arr :=
  mkCallable (accepts_kw c)
    (fun shape hw => (fst (body c shape (snd hw)), (fst hw, snd (body c shape (snd hw))))).

Definition apart_obj {World Arr : Type} (g : PyObj World Arr)
    : PyObj (DatasetLoader * Z * World) Arr :=
  match g with
  | PyNone => PyNone
  | PyInt z => PyInt z
  | PyCallable c => PyCallable (apart_callable c)
  end.

(** A loader whose sampler is apart: the attributes other than get_X0 are
    on the heap, get_X0 is [g]. *)
Definition apart_self {World Arr : Type} (g : PyObj World Arr)
    (hw : DatasetLoader * Z * World) : DataLoaderFromMap (DatasetLoader * Z * World) Arr :=
  mkDataLoaderFromMap (fst (fst hw)) (apart_obj g) (snd (fst hw)).

Definition share {World Arr : Type} (s : State World Arr)
    : Shared.State (DatasetLoader * Z * World) :=
  Shared.mkState (super (heap s), dim (heap s), world s) (calls s).

(** A heap for concrete runs: the number of sampler calls so far, and the
    loader's numbers. *)
Record Heap : Type := mkHeap {
  sampled : nat;
  loader_numbers : DatasetLoader;
  loader_dim : Z
}.

Definition sampled_rows (shape : Shape) (h : Heap) : list (list Z) :=
  repeat (repeat (Z.of_nat (sampled h)) (Z.to_nat (snd shape))) (Z.to_nat (fst shape)).

(** A sampler that holds the loader and sets its [N_test] to 7 at every
    call: [def f(shape): loader.N_test = 7; return ...]. *)
Definition grabbing_sampler : Callable Heap (list (list Z)) :=
  mkCallable
    (fun kw => String.eqb kw "shape")
    (fun shape h =>
       (Ok (sampled_rows shape h),
        mkHeap (S (sampled h))
          (mkDatasetLoader (N_train (loader_numbers h)) 7 (batch_size (loader_numbers h)))
          (loader_dim h))).

(** A sampler on the same heap that leaves the loader alone. *)
Definition quiet_sampler : Callable Heap (list (list Z)) :=
  mkCallable
    (fun kw => String.eqb kw "shape")
    (fun shape h =>
       (Ok (sampled_rows shape h),
        mkHeap (S (sampled h)) (loader_numbers h) (loader_dim h))).

Definition self_with (c : Callable Heap (list (list Z))) (h : Heap)
    : DataLoaderFromMap Heap (list (list Z)) :=
  mkDataLoaderFromMap (loader_numbers h) (PyCallable c) (loader_dim h).

Definition heap_5_3 : Heap := mkHeap 0 (mkDatasetLoader 5 3 2) 2.

(** * Properties *)

Unset Implicit Arguments.

(** ** How one dataset is built *)

Section BuildFacts.

Context {World Arr : Type} {tf : Framework Arr}.

Implicit Types (s : State World Arr) (rows : DatasetLoader -> Z).

(** [build], run: the call protocol, the sampler, then the framework. *)
Lemma build_run rows s :
  build rows s =
  match get_X0 (heap s) with
  | PyNone => (Raise (TypeError "'NoneType' object is not callable"), s)
  | PyInt _ => (Raise (TypeError "'int' object is not callable"), s)
  | PyCallable c =>
      if accepts_kw c "shape" then
        let shape := (rows (heap s), dim (heap s)) in
        let s1 := mkState (heap s) (snd (body c shape (world s))) (calls s ++ [shape]) in
        match fst (body c shape (world s)) with
        | Ok x => (paired_batched_prefetched x (rows (heap s)) (batch_size (heap s)), s1)
        | Raise e => (Raise e, s1)
        end
      else (Raise (TypeError "got an unexpected keyword argument"), s)
  end.
Proof.
  unfold build, bind, attr, lift, call_kw, raise, paired_batched_prefetched.
  destruct (get_X0 (heap s)) as [| z | c]; try reflexivity.
  destruct (accepts_kw c "shape"); try reflexivity.
  destruct (body c (rows (heap s), dim (heap s)) (world s)) as [[x | e] w];
    cbn [fst snd heap world calls]; try reflexivity.
  destruct (zeros (rows (heap s), 1)) as [z | e]; try reflexivity.
  destruct (from_tensor_slices (x, z)) as [sl | e]; try reflexivity.
  destruct (batch sl (batch_size (heap s))) as [b | e]; reflexivity.
Qed.

(** [loadData] builds the training dataset, then the test dataset. *)
Lemma loadData_two_builds s :
  loadData s =
  (ds <- build N_train ;; ds_test <- build N_test ;; ret (ds, ds_test)) s.
Proof.
  unfold loadData, build, bind, attr, lift, ret.
  destruct (call_kw (get_X0 (heap s)) "shape" (N_train (heap s), dim (heap s)) s)
    as [[x | e] s1]; try reflexivity.
  destruct (zeros (N_train (heap s1), 1)) as [z | e]; try reflexivity.
  destruct (from_tensor_slices (x, z)) as [sl | e]; try reflexivity.
  destruct (batch sl (batch_size (heap s1))) as [b | e]; try reflexivity.
  destruct (prefetch b AUTOTUNE) as [ds | e]; try reflexivity.
  destruct (call_kw (get_X0 (heap s1)) "shape" (N_test (heap s1), dim (heap s1)) s1)
    as [[x' | e] s2]; try reflexivity.
  destruct (zeros (N_test (heap s2), 1)) as [z' | e]; try reflexivity.
  destruct (from_tensor_slices (x', z')) as [sl' | e]; try reflexivity.
  destruct (batch sl' (batch_size (heap s2))) as [b' | e]; reflexivity.
Qed.

(** [build] returns exactly when the sampler is a callable taking [shape],
    its body returns, and the framework accepts what it returned. *)
Lemma build_Ok rows s ds s' :
  build rows s = (Ok ds, s') <->
  exists c x w,
    get_X0 (heap s) = PyCallable c /\
    accepts_kw c "shape" = true /\
    body c (rows (heap s), dim (heap s)) (world s) = (Ok x, w) /\
    paired_batched_prefetched x (rows (heap s)) (batch_size (heap s)) = Ok ds /\
    s' = mkState (heap s) w (calls s ++ [(rows (heap s), dim (heap s))]).
Proof.
  rewrite build_run. split.
  - destruct (get_X0 (heap s)) as [| z | c]; try discriminate.
    destruct (accepts_kw c "shape") eqn:Hkw; try discriminate.
    cbv zeta.
    destruct (body c (rows (heap s), dim (heap s)) (world s)) as [[x | e] w] eqn:Hb;
      cbn [fst snd]; try discriminate.
    intros H. injection H as Hp Hs.
    exists c, x, w. repeat split; auto.
  - intros (c & x & w & Hg & Hkw & Hb & Hp & ->).
    rewrite Hg, Hkw. cbv zeta. rewrite Hb. cbn [fst snd]. rewrite Hp. reflexivity.
Qed.


End BuildFacts.

(** ** Lists cut into batches *)

Section ChunkFacts.

Context {A : Type}.

Implicit Types (l : list A) (fuel size : nat).

(** Nothing is lost and nothing is reordered. *)
Lemma chunks_concat fuel size l :
  (0 < size)%nat -> (length l <= fuel)%nat -> concat (chunks fuel size l) = l.
Proof.
  intros Hsize. revert l.
  induction fuel as [| fuel IH]; intros l Hlen.
  - destruct l; [reflexivity | simpl in Hlen; lia].
  - destruct l as [| a l']; [reflexivity |].
    cbn [chunks concat]. rewrite IH.
    + apply firstn_skipn.
    + rewrite length_skipn. cbn [length] in *. lia.
Qed.

(** The number [k] of batches is the least with [length l <= size * k]. *)
Lemma chunks_count fuel size l :
  (0 < size)%nat -> (length l <= fuel)%nat ->
  (size * length (chunks fuel size l) < length l + size)%nat /\
  (length l <= size * length (chunks fuel size l))%nat.
Proof.
  intros Hsize. revert l.
  induction fuel as [| fuel IH]; intros l Hlen.
  - destruct l; simpl in *; lia.
  - destruct l as [| a l']; [simpl; lia |].
    cbn [chunks length].
    assert (Hskip : (length (skipn size (a :: l')) <= fuel)%nat)
      by (rewrite length_skipn; cbn [length] in *; lia).
    specialize (IH _ Hskip). rewrite length_skipn in IH. cbn [length] in IH.
    destruct (Nat.le_gt_cases size (S (length l'))) as [Hge | Hlt].
    + nia.
    + replace (S (length l') - size)%nat with 0%nat in IH by lia.
      assert (length (chunks fuel size (skipn size (a :: l'))) = 0)%nat by nia.
      nia.
Qed.

(** No batch is larger than [size]. *)
Lemma chunks_bound fuel size l :
  Forall (fun c => (length c <= size)%nat) (chunks fuel size l).
Proof.
  revert l. induction fuel as [| fuel IH]; intros l; [constructor |].
  destruct l as [| a l']; [constructor |].
  cbn [chunks]. constructor; [apply firstn_le_length | apply IH].
Qed.

End ChunkFacts.

Section SplitFacts.

Context {A B : Type}.

Lemma fst_split_map (l : list (A * B)) : fst (split l) = map fst l.
Proof.
  induction l as [| [a b] l IH]; [reflexivity |].
  simpl. destruct (split l). simpl in *. now rewrite IH.
Qed.

Lemma snd_split_map (l : list (A * B)) : snd (split l) = map snd l.
Proof.
  induction l as [| [a b] l IH]; [reflexivity |].
  simpl. destruct (split l). simpl in *. now rewrite IH.
Qed.

Lemma map_fst_combine (x : list A) (z : list B) :
  length x = length z -> map fst (combine x z) = x.
Proof.
  revert z. induction x as [| a x IH]; intros [| b z] H; simpl in *;
    try discriminate; [reflexivity |].
  f_equal. apply IH. lia.
Qed.

Lemma map_snd_combine (x : list A) (z : list B) :
  length x = length z -> map snd (combine x z) = z.
Proof.
  revert z. induction x as [| a x IH]; intros [| b z] H; simpl in *;
    try discriminate; [reflexivity |].
  f_equal. apply IH. lia.
Qed.

End SplitFacts.

(** [ceil_div n k] is the one [q] with [k * (q - 1) < n <= k * q]. *)
Lemma ceil_div_unique (n k q : Z) :
  0 < k -> k * (q - 1) < n <= k * q -> q = ceil_div n k.
Proof.
  intros Hk [Hlo Hhi]. unfold ceil_div.
  apply Z.div_unique with (r := n + k - 1 - k * q); lia.
Qed.

(** ** The list model of the framework *)

Section ListFrameworkFacts.

Context {Slice elt : Type} (zero : elt).

(** One pipeline of the list model returns exactly when the sampled array
    has the [n] rows asked for and the batch size is positive; it is then
    the rows, each paired with the row [[zero]], cut into batches. *)
Lemma list_pipeline_Ok (x : list Slice) (n bs : Z) ds :
  paired_batched_prefetched (tf := list_tf Slice zero) x n bs = Ok ds <->
  0 <= n /\ length x = Z.to_nat n /\ 0 < bs /\
  ds = map (@split Slice (list elt))
         (chunks (length x) (Z.to_nat bs) (combine x (repeat [zero] (Z.to_nat n)))).
Proof.
  unfold paired_batched_prefetched.
  cbn [zeros from_tensor_slices batch prefetch AUTOTUNE list_tf].
  unfold list_zeros, list_from_tensor_slices, list_batch, list_prefetch.
  change (repeat zero (Z.to_nat 1)) with [zero].
  change (0 <? 0) with false. change (1 <? 0) with false. rewrite orb_false_r.
  change (list_AUTOTUNE <? list_AUTOTUNE) with false.
  destruct (Z.ltb_spec n 0) as [Hn | Hn].
  { split; [discriminate | lia]. }
  rewrite repeat_length.
  destruct (Nat.eqb_spec (length x) (Z.to_nat n)) as [Hx | Hx].
  2: { split; [discriminate | tauto]. }
  destruct (Z.leb_spec bs 0) as [Hbs | Hbs].
  { split; [discriminate | lia]. }
  rewrite length_combine, repeat_length, <- Hx, Nat.min_id.
  split.
  - intros H. injection H as <-. repeat split; auto.
  - intros (_ & _ & _ & ->). reflexivity.
Qed.

(** Undoing the batches of such a pipeline gives back the rows and the
    zeros, as they were. *)
Lemma list_pipeline_unbatch (x : list Slice) (n bs : Z) ds :
  paired_batched_prefetched (tf := list_tf Slice zero) x n bs = Ok ds ->
  unbatch ds = (x, repeat [zero] (Z.to_nat n)).
Proof.
  intros H. apply list_pipeline_Ok in H. destruct H as (Hn & Hx & Hbs & ->).
  assert (Hlen : length x = length (repeat [zero] (Z.to_nat n)))
    by (now rewrite repeat_length).
  unfold unbatch. rewrite !map_map.
  rewrite (map_ext _ (map fst) (@fst_split_map Slice (list elt))).
  rewrite (map_ext _ (map snd) (@snd_split_map Slice (list elt))).
  rewrite <- !concat_map, chunks_concat.
  - now rewrite map_fst_combine, map_snd_combine.
  - lia.
  - rewrite length_combine. lia.
Qed.

End ListFrameworkFacts.

(** ** loadData, over any framework *)

Section LoadDataFacts.

Context {World Arr : Type} {tf : Framework Arr}.

Implicit Types (s : State World Arr).

(** The framework's part of a pipeline, step by step. *)
Lemma paired_batched_prefetched_steps (x : Arr) (n bs : Z) ds :
  paired_batched_prefetched x n bs = Ok ds <->
  exists z slices batched,
    zeros (n, 1) = Ok z /\
    from_tensor_slices (x, z) = Ok slices /\
    batch slices bs = Ok batched /\
    prefetch batched AUTOTUNE = Ok ds.
Proof.
  unfold paired_batched_prefetched. split.
  - destruct (zeros (n, 1)) as [z | e]; try discriminate.
    destruct (from_tensor_slices (x, z)) as [sl | e] eqn:Hsl; try discriminate.
    destruct (batch sl bs) as [b | e] eqn:Hb; try discriminate.
    intros H. exists z, sl, b. auto.
  - intros (z & sl & b & -> & -> & -> & H). exact H.
Qed.

(** [loadData] returns exactly when both of its builds do. *)
Lemma loadData_Ok s ds ds_test s' :
  loadData s = (Ok (ds, ds_test), s') <->
  exists c x w x' w',
    get_X0 (heap s) = PyCallable c /\
    accepts_kw c "shape" = true /\
    body c (train_shape (heap s)) (world s) = (Ok x, w) /\
    paired_batched_prefetched x (N_train (heap s)) (batch_size (heap s)) = Ok ds /\
    body c (test_shape (heap s)) w = (Ok x', w') /\
    paired_batched_prefetched x' (N_test (heap s)) (batch_size (heap s)) = Ok ds_test /\
    s' = mkState (heap s) w' (calls s ++ [train_shape (heap s); test_shape (heap s)]).
Proof.
  rewrite loadData_two_builds. unfold bind, ret, train_shape, test_shape. split.
  - destruct (build N_train s) as [[d1 | e] s1] eqn:H1; try discriminate.
    destruct (build N_test s1) as [[d2 | e] s2] eqn:H2; try discriminate.
    intros H. injection H as -> -> ->.
    apply build_Ok in H1. destruct H1 as (c & x & w & Hg & Hkw & Hb & Hp & ->).
    apply build_Ok in H2. cbn [heap world calls] in H2.
    destruct H2 as (c' & x' & w' & Hg' & Hkw' & Hb' & Hp' & ->).
    assert (c' = c) by congruence. subst c'.
    exists c, x, w, x', w'. rewrite <- app_assoc. repeat split; auto.
  - intros (c & x & w & x' & w' & Hg & Hkw & Hb & Hp & Hb' & Hp' & ->).
    assert (H1 : build N_train s =
                 (Ok ds, mkState (heap s) w (calls s ++ [(N_train (heap s), dim (heap s))]))).
    { apply build_Ok. exists c, x, w. auto. }
    rewrite H1.
    assert (H2 : build N_test (mkState (heap s) w (calls s ++ [(N_train (heap s), dim (heap s))])) =
                 (Ok ds_test,
                  mkState (heap s) w'
                    ((calls s ++ [(N_train (heap s), dim (heap s))]) ++
                     [(N_test (heap s), dim (heap s))]))).
    { apply build_Ok. exists c, x', w'. cbn [heap world calls]. auto. }
    rewrite H2, <- app_assoc. reflexivity.
Qed.


End LoadDataFacts.

Section ListPipelineCounts.

Context {Slice elt : Type} (zero : elt).

(** A pipeline of the list model over [n] rows has [ceil_div n bs] batches,
    none of them larger than [bs]. *)
Lemma list_pipeline_count (x : list Slice) (n bs : Z) ds :
  paired_batched_prefetched (tf := list_tf Slice zero) x n bs = Ok ds ->
  Z.of_nat (length ds) = ceil_div n bs /\
  Forall (fun b => Z.of_nat (length (fst b)) <= bs /\ Z.of_nat (length (snd b)) <= bs) ds.
Proof.
  intros H. apply list_pipeline_Ok in H. destruct H as (Hn & Hx & Hbs & ->).
  set (l := combine x (repeat [zero] (Z.to_nat n))).
  assert (Hl : length l = length x)
    by (unfold l; rewrite length_combine, repeat_length; lia).
  split.
  - rewrite length_map. apply ceil_div_unique; [exact Hbs |].
    destruct (chunks_count (length x) (Z.to_nat bs) l) as [Hlo Hhi]; [lia | lia |].
    set (k := length (chunks (length x) (Z.to_nat bs) l)) in *.
    rewrite Hl, Hx in Hlo, Hhi.
    apply Nat2Z.inj_lt in Hlo. apply Nat2Z.inj_le in Hhi.
    rewrite ?Nat2Z.inj_add, ?Nat2Z.inj_mul, !Z2Nat.id in Hlo, Hhi by lia.
    lia.
  - apply Forall_map.
    eapply Forall_impl; [| apply (chunks_bound (length x) (Z.to_nat bs) l)].
    intros c Hc. cbv beta in Hc. rewrite length_fst_split, length_snd_split. lia.
Qed.

End ListPipelineCounts.

(** * The constructor *)

Section Constructor.

Context {World Arr : Type}.

Implicit Types (super_init : Z -> Z -> Z -> result DatasetLoader)
  (args : InitArgs World Arr) (o : DataLoaderFromMap World Arr) (g : PyObj World Arr).

(** [__init__] raises only what the base class's constructor raises. *)
Lemma init_with_Raise super_init args e :
  init_with super_init args = Raise e <->
  super_init (default 100 (arg_N_train args)) (default 1000 (arg_N_test args))
    (default 512 (arg_batch_size args)) = Raise e.
Proof.
  unfold init_with. cbv zeta.
  destruct (super_init _ _ _) as [base | e']; cbn; split; intros H;
    try discriminate; congruence.
Qed.

Lemma init_with_Ok super_init args o :
  init_with super_init args = Ok o <->
  super_init (default 100 (arg_N_train args)) (default 1000 (arg_N_test args))
    (default 512 (arg_batch_size args)) = Ok (super o) /\
  get_X0 o = default PyNone (arg_get_X0 args) /\
  dim o = default 1 (arg_dim args).
Proof.
  unfold init_with. cbv zeta.
  destruct (super_init _ _ _) as [base | e']; cbn.
  - split.
    + intros H. injection H as <-. auto.
    + destruct o as [b g d]. cbn. intros (Hb & -> & ->). congruence.
  - split; [discriminate | intros (H & _); discriminate].
Qed.

(** C3: for all arguments N_train, N_test, batch_size, get_X0 and dim the
    constructor hands N_train, N_test, batch_size, in that order and as they
    are, to the constructor of the base class, and sets the attributes
    get_X0 and dim to the callback and the dimension given.  This holds for
    every base-class constructor: construction returns an object exactly
    when the base class accepts the three values, the object holds what the
    base class made of them, and an exception is the base class's. *)
Theorem init_forwards_then_sets super_init (n_train n_test bs : Z) g (d : Z) :
  let args := mkInitArgs (Some n_train) (Some n_test) (Some bs) (Some g) (Some d) in
  (forall o,
      init_with super_init args = Ok o <->
      super_init n_train n_test bs = Ok (super o) /\ get_X0 o = g /\ dim o = d) /\
  (forall e,
      init_with super_init args = Raise e <-> super_init n_train n_test bs = Raise e).
Proof.
  intros args. split.
  - intros o. apply (init_with_Ok super_init args o).
  - intros e. apply (init_with_Raise super_init args e).
Qed.

(** C4: the constructor validates nothing and never raises.  For all
    values given for N_train, N_test, batch_size, get_X0 and dim, [None]
    for get_X0 and zero or negative numbers included, construction returns
    an object, and each attribute of it is the value given, unmodified.
    The constructor itself raises nothing, whatever the base class; that
    the base class raises nothing either is the spec's account of it. *)
Theorem init_total_no_validation (n_train n_test bs : Z) g (d : Z) :
  let args := mkInitArgs (Some n_train) (Some n_test) (Some bs) (Some g) (Some d) in
  (forall super_init e,
      init_with super_init args = Raise e -> super_init n_train n_test bs = Raise e) /\
  exists o,
    DataLoaderFromMap__init__ args = Ok o /\
    N_train o = n_train /\
    N_test o = n_test /\
    batch_size o = bs /\
    get_X0 o = g /\
    dim o = d.
Proof.
  intros args. split.
  - intros super_init e H. now apply (init_with_Raise super_init args e).
  - eexists. split; [reflexivity |]. cbn. repeat split.
Qed.

(** C10: a DataLoaderFromMap constructed with no arguments has
    N_train = 100, N_test = 1000, batch_size = 512, dim = 1 and
    get_X0 = None.  Whatever the base class, it is handed (100, 1000, 512),
    and dim and get_X0 are set to 1 and None. *)
Theorem init_defaults :
  (forall super_init,
      init_with super_init (@no_args World Arr) =
      match super_init 100 1000 512 with
      | Ok base => Ok (mkDataLoaderFromMap base PyNone 1)
      | Raise e => Raise e
      end) /\
  exists o,
    DataLoaderFromMap__init__ (@no_args World Arr) = Ok o /\
    N_train o = 100 /\ N_test o = 1000 /\ batch_size o = 512 /\
    dim o = 1 /\ get_X0 o = PyNone.
Proof.
  split.
  - intros super_init. unfold init_with. cbn [default no_args arg_N_train arg_N_test
      arg_batch_size arg_get_X0 arg_dim].
    destruct (super_init 100 1000 512); reflexivity.
  - eexists. split; [reflexivity |]. cbn. repeat split.
Qed.

End Constructor.

(** * loadData *)

Section LoadDataClaims.

Context {World Arr : Type} {tf : Framework Arr}.

Implicit Types (s : State World Arr).

(** C1: loadData returns a pair of pipelines in the order (train, test).
    The first is built from the array get_X0(shape=(N_train, dim)) paired
    with zeros, the second from get_X0(shape=(N_test, dim)) paired with
    zeros, each then batched and prefetched.  Stated as an equivalence:
    loadData returns [(ds, ds_test)] exactly when the sampler is a callable
    taking [shape], its two calls return arrays [x] and [x'] (the second
    call runs in the world the first one left), and the framework makes
    [ds] of [x] and [ds_test] of [x'] by from_tensor_slices over the array
    and zeros, batch with the stored batch_size, and prefetch. *)
Theorem loadData_train_then_test s ds ds_test s' :
  loadData s = (Ok (ds, ds_test), s') <->
  exists c x w x' w',
    get_X0 (heap s) = PyCallable c /\
    accepts_kw c "shape" = true /\
    body c (N_train (heap s), dim (heap s)) (world s) = (Ok x, w) /\
    body c (N_test (heap s), dim (heap s)) w = (Ok x', w') /\
    (exists z slices batched,
        zeros (N_train (heap s), 1) = Ok z /\
        from_tensor_slices (x, z) = Ok slices /\
        batch slices (batch_size (heap s)) = Ok batched /\
        prefetch batched AUTOTUNE = Ok ds) /\
    (exists z' slices' batched',
        zeros (N_test (heap s), 1) = Ok z' /\
        from_tensor_slices (x', z') = Ok slices' /\
        batch slices' (batch_size (heap s)) = Ok batched' /\
        prefetch batched' AUTOTUNE = Ok ds_test) /\
    s' = mkState (heap s) w'
           (calls s ++ [(N_train (heap s), dim (heap s)); (N_test (heap s), dim (heap s))]).
Proof.
  rewrite loadData_Ok. unfold train_shape, test_shape.
  split; intros (c & x & w & x' & w' & H).
  - destruct H as (Hg & Hkw & Hb & Hp & Hb' & Hp' & Hs).
    apply paired_batched_prefetched_steps in Hp, Hp'.
    exists c, x, w, x', w'. repeat split; assumption.
  - destruct H as (Hg & Hkw & Hb & Hb' & Hp & Hp' & Hs).
    apply paired_batched_prefetched_steps in Hp, Hp'.
    exists c, x, w, x', w'. repeat split; assumption.
Qed.


(** C7: loadData hands every dataset operation to the sampler and to the
    framework.  Whatever arrays [x] and [x'] the two sampler calls return,
    the outcome of loadData is what the framework makes of exactly these
    arrays and of its own zeros: loadData does not transform, filter or
    check them, and an exception can only be the framework's. *)
Theorem loadData_delegates s c x w x' w' :
  get_X0 (heap s) = PyCallable c ->
  accepts_kw c "shape" = true ->
  body c (train_shape (heap s)) (world s) = (Ok x, w) ->
  body c (test_shape (heap s)) w = (Ok x', w') ->
  fst (loadData s) =
  match paired_batched_prefetched x (N_train (heap s)) (batch_size (heap s)) with
  | Raise e => Raise e
  | Ok ds =>
      match paired_batched_prefetched x' (N_test (heap s)) (batch_size (heap s)) with
      | Raise e => Raise e
      | Ok ds_test => Ok (ds, ds_test)
      end
  end.
Proof.
  unfold train_shape, test_shape. intros Hg Hkw Hb Hb'.
  rewrite loadData_two_builds. unfold bind, ret.
  rewrite (build_run N_train s), Hg, Hkw. cbv zeta. rewrite Hb. cbn [fst snd].
  destruct (paired_batched_prefetched x _ _) as [ds | e]; [| reflexivity].
  rewrite build_run. cbn [heap world calls]. rewrite Hg, Hkw. cbv zeta.
  rewrite Hb'. cbn [fst snd].
  destruct (paired_batched_prefetched x' _ _) as [ds_test | e]; reflexivity.
Qed.

(** C9: with get_X0 left at its default None, construction still succeeds
    (it raises nothing that the base class does not), but every later call
    of loadData fails, with a TypeError, at the attempt to call the missing
    callback: nothing has been sampled or built by then.  loadData returns
    only if get_X0 is a callable that takes the keyword argument shape. *)
Theorem loadData_needs_sampler super_init (args : InitArgs World Arr) base :
  arg_get_X0 args = None ->
  super_init (default 100 (arg_N_train args)) (default 1000 (arg_N_test args))
    (default 512 (arg_batch_size args)) = Ok base ->
  (exists o,
      init_with super_init args = Ok o /\
      get_X0 o = PyNone /\
      forall s, heap s = o ->
        loadData s = (Raise (TypeError "'NoneType' object is not callable"), s)) /\
  (forall s p s',
      loadData s = (Ok p, s') ->
      exists c, get_X0 (heap s) = PyCallable c /\ accepts_kw c "shape" = true).
Proof.
  intros Hnone Hbase. split.
  - exists (mkDataLoaderFromMap base PyNone (default 1 (arg_dim args))).
    split; [| split].
    + unfold init_with. cbv zeta. rewrite Hbase, Hnone. reflexivity.
    + reflexivity.
    + intros s Hs. rewrite loadData_two_builds. unfold bind.
      rewrite build_run, Hs. reflexivity.
  - intros s [ds ds_test] s' H. apply loadData_Ok in H.
    destruct H as (c & x & w & x' & w' & Hg & Hkw & _). now exists c.
Qed.

End LoadDataClaims.

(** [ceil_div] rounds the quotient up. *)
Lemma ceil_div_spec (n k : Z) :
  0 < k -> k * (ceil_div n k - 1) < n <= k * ceil_div n k.
Proof.
  intros Hk. unfold ceil_div.
  pose proof (Z.div_mod (n + k - 1) k) as Hdm.
  pose proof (Z.mod_pos_bound (n + k - 1) k Hk) as Hm.
  lia.
Qed.

(** * loadData over the list model *)

Section ListClaims.

Context {World Slice elt : Type} (zero : elt).

Implicit Types (s : State World (list Slice)).

(** In the list model, a returned pipeline unbatches to the sampled rows
    next to one row [[zero]] each. *)
Lemma loadData_list_unbatch s ds ds_test s' :
  loadData (tf := list_tf Slice zero) s = (Ok (ds, ds_test), s') ->
  exists c x w x' w',
    get_X0 (heap s) = PyCallable c /\
    body c (train_shape (heap s)) (world s) = (Ok x, w) /\
    body c (test_shape (heap s)) w = (Ok x', w') /\
    0 <= N_train (heap s) /\ 0 <= N_test (heap s) /\
    unbatch ds = (x, repeat [zero] (Z.to_nat (N_train (heap s)))) /\
    unbatch ds_test = (x', repeat [zero] (Z.to_nat (N_test (heap s)))).
Proof.
  intros H. apply loadData_Ok in H.
  destruct H as (c & x & w & x' & w' & Hg & _ & Hb & Hp & Hb' & Hp' & _).
  exists c, x, w, x', w'.
  pose proof (proj1 (list_pipeline_Ok zero _ _ _ _) Hp) as (Hn & _).
  pose proof (proj1 (list_pipeline_Ok zero _ _ _ _) Hp') as (Hn' & _).
  apply list_pipeline_unbatch in Hp, Hp'. auto 10.
Qed.

(** C5: in both pipelines loadData returns, the component paired with the
    sampled array is an all-zeros array of shape (N, 1): N_train rows for
    the training pipeline, N_test rows for the test pipeline, each row one
    zero, whatever dim is.  Every batch holds such rows only. *)
Theorem loadData_zeros_component s ds ds_test s' :
  loadData (tf := list_tf Slice zero) s = (Ok (ds, ds_test), s') ->
  snd (unbatch ds) = repeat [zero] (Z.to_nat (N_train (heap s))) /\
  Z.of_nat (length (snd (unbatch ds))) = N_train (heap s) /\
  snd (unbatch ds_test) = repeat [zero] (Z.to_nat (N_test (heap s))) /\
  Z.of_nat (length (snd (unbatch ds_test))) = N_test (heap s) /\
  Forall (fun b => Forall (eq [zero]) (snd b)) (ds ++ ds_test).
Proof.
  intros H. apply loadData_list_unbatch in H.
  destruct H as (c & x & w & x' & w' & _ & _ & _ & Hn & Hn' & Hu & Hu').
  apply (f_equal snd) in Hu, Hu'. cbn [snd] in Hu, Hu'.
  rewrite Hu, Hu', !repeat_length.
  repeat split; try lia.
  unfold unbatch in Hu, Hu'. cbn [snd] in Hu, Hu'.
  apply Forall_app. split; apply Forall_forall; intros b Hb;
    apply Forall_forall; intros row Hrow; symmetry.
  - apply (repeat_spec (Z.to_nat (N_train (heap s))) [zero] row).
    rewrite <- Hu. apply in_concat. exists (snd b). split; [now apply in_map | exact Hrow].
  - apply (repeat_spec (Z.to_nat (N_test (heap s))) [zero] row).
    rewrite <- Hu'. apply in_concat. exists (snd b). split; [now apply in_map | exact Hrow].
Qed.

(** C6: both pipelines are batched with the one stored batch_size, and
    prefetched.  For N_train, N_test, batch_size > 0 the training pipeline
    consists of ceil(N_train / batch_size) batches and the test pipeline of
    ceil(N_test / batch_size) batches, each batch of size at most
    batch_size; and loadData does return these pipelines when the sampler
    returns arrays with the numbers of rows it was asked for. *)
Theorem loadData_batch_counts s :
  0 < N_train (heap s) -> 0 < N_test (heap s) -> 0 < batch_size (heap s) ->
  (forall ds ds_test s',
      loadData (tf := list_tf Slice zero) s = (Ok (ds, ds_test), s') ->
      Z.of_nat (length ds) = ceil_div (N_train (heap s)) (batch_size (heap s)) /\
      Z.of_nat (length ds_test) = ceil_div (N_test (heap s)) (batch_size (heap s)) /\
      Forall (fun b => Z.of_nat (length (fst b)) <= batch_size (heap s) /\
                       Z.of_nat (length (snd b)) <= batch_size (heap s))
        (ds ++ ds_test)) /\
  (forall c x w x' w',
      get_X0 (heap s) = PyCallable c ->
      accepts_kw c "shape" = true ->
      body c (train_shape (heap s)) (world s) = (Ok x, w) ->
      Z.of_nat (length x) = N_train (heap s) ->
      body c (test_shape (heap s)) w = (Ok x', w') ->
      Z.of_nat (length x') = N_test (heap s) ->
      exists ds ds_test s',
        loadData (tf := list_tf Slice zero) s = (Ok (ds, ds_test), s')).
Proof.
  intros Hn Hn' Hbs. split.
  - intros ds ds_test s' H. apply loadData_Ok in H.
    destruct H as (c & x & w & x' & w' & _ & _ & _ & Hp & _ & Hp' & _).
    apply list_pipeline_count in Hp, Hp'.
    destruct Hp as [Hc Hf], Hp' as [Hc' Hf'].
    repeat split; try assumption. apply Forall_app. now split.
  - intros c x w x' w' Hg Hkw Hb Hx Hb' Hx'.
    do 3 eexists. apply loadData_Ok.
    exists c, x, w, x', w'. repeat split; try eassumption.
    + apply list_pipeline_Ok. repeat split; try lia.
    + apply list_pipeline_Ok. repeat split; try lia.
Qed.

End ListClaims.

(** * Concrete runs *)

(** Five training rows and three test rows, in batches of two. *)
Example loadData_5_3_run :
  fst (loadData (tf := tfZ) (start loader_5_3 0%nat)) =
  Ok ([([[0; 0]; [0; 0]], [[0]; [0]]); ([[0; 0]; [0; 0]], [[0]; [0]]); ([[0; 0]], [[0]])],
      [([[1; 1]; [1; 1]], [[0]; [0]]); ([[1; 1]], [[0]])]).
Proof. reflexivity. Qed.

(** A sampler that returns one row too many: the framework refuses the
    pair, after one sampler call. *)
Example loadData_wrong_rows :
  let c := mkCallable (fun kw => String.eqb kw "shape")
             (fun shape (w : nat) =>
                (Ok (repeat [7] (S (Z.to_nat (fst shape)))), S w)) in
  let run := loadData (tf := tfZ)
               (start (mkDataLoaderFromMap (mkDatasetLoader 2 2 1) (PyCallable c) 1) 0%nat) in
  fst run = Raise (ValueError "Dimensions are not compatible") /\
  calls (snd run) = [(2, 1)].
Proof. split; reflexivity. Qed.

(** A callable whose signature has no [shape]: the call does not bind. *)
Example loadData_no_shape_keyword :
  let c := mkCallable (fun kw => String.eqb kw "size")
             (fun shape (w : nat) => (Ok (repeat [7] (Z.to_nat (fst shape))), w)) in
  let run := loadData (tf := tfZ)
               (start (mkDataLoaderFromMap (mkDatasetLoader 2 2 1) (PyCallable c) 1) 0%nat) in
  fst run = Raise (TypeError "got an unexpected keyword argument") /\
  calls (snd run) = [].
Proof. split; reflexivity. Qed.

(** A sampler that raises when called a second time: the training dataset
    is built, the exception of the second call is the outcome, and both
    calls are on the trace. *)
Example loadData_sampler_raises :
  let c := mkCallable (fun kw => String.eqb kw "shape")
             (fun shape (w : nat) =>
                match w with
                | O => (Ok (repeat [7] (Z.to_nat (fst shape))), S w)
                | S _ => (Raise (UserError "out of samples"), w)
                end) in
  let run := loadData (tf := tfZ)
               (start (mkDataLoaderFromMap (mkDatasetLoader 2 3 1) (PyCallable c) 1) 0%nat) in
  fst run = Raise (UserError "out of samples") /\
  calls (snd run) = [(2, 1); (3, 1)].
Proof. split; reflexivity. Qed.

(** A batch size of zero: the framework refuses it, after one sampler call. *)
Example loadData_zero_batch_size :
  let run := loadData (tf := tfZ)
               (start (mkDataLoaderFromMap (mkDatasetLoader 2 3 0) (PyCallable count_sampler) 1)
                  0%nat) in
  fst run = Raise (InvalidArgumentError "Batch size must be greater than zero") /\
  calls (snd run) = [(2, 1)].
Proof. split; reflexivity. Qed.

(** Zero and negative numbers and [None] are stored as they come. *)
Example init_stores_anything :
  @DataLoaderFromMap__init__ nat (list (list Z))
    (mkInitArgs (Some 0) (Some (-3)) (Some (-1)) (Some PyNone) (Some 0)) =
  Ok (mkDataLoaderFromMap (mkDatasetLoader 0 (-3) (-1)) PyNone 0).
Proof. reflexivity. Qed.



(** C7 at the same loader: the arrays are the sampler's, as returned. *)
Lemma loadData_delegates_5_3 :
  fst (loadData (tf := tfZ) (start loader_5_3 0%nat)) =
  match paired_batched_prefetched (tf := tfZ)
          [[0; 0]; [0; 0]; [0; 0]; [0; 0]; [0; 0]] 5 2 with
  | Raise e => Raise e
  | Ok ds =>
      match paired_batched_prefetched (tf := tfZ) [[1; 1]; [1; 1]; [1; 1]] 3 2 with
      | Raise e => Raise e
      | Ok ds_test => Ok (ds, ds_test)
      end
  end.
Proof.
  apply (loadData_delegates (tf := tfZ) (start loader_5_3 0%nat) count_sampler
           [[0; 0]; [0; 0]; [0; 0]; [0; 0]; [0; 0]] 1%nat
           [[1; 1]; [1; 1]; [1; 1]] 2%nat); reflexivity.
Defined.

(** C9 at the default arguments and the spec's base class. *)
Lemma loadData_needs_sampler_default :
  exists o : DataLoaderFromMap nat (list (list Z)),
    DataLoaderFromMap__init__ no_args = Ok o /\
    loadData (tf := tfZ) (start o 5%nat) =
    (Raise (TypeError "'NoneType' object is not callable"), start o 5%nat).
Proof.
  destruct (loadData_needs_sampler (World := nat) (tf := tfZ) DatasetLoader__init__
              no_args (mkDatasetLoader 100 1000 512) eq_refl eq_refl)
    as [(o & Hinit & _ & Hfail) _].
  exists o. split; [exact Hinit |]. apply Hfail. reflexivity.
Defined.

(** C5 at the loader with five and three rows. *)
Lemma loadData_zeros_component_5_3 :
  exists ds ds_test s',
    loadData (tf := tfZ) (start loader_5_3 0%nat) = (Ok (ds, ds_test), s') /\
    snd (unbatch ds) = [[0]; [0]; [0]; [0]; [0]] /\
    snd (unbatch ds_test) = [[0]; [0]; [0]].
Proof.
  do 3 eexists. split; [reflexivity |].
  destruct (loadData_zeros_component (World := nat) (Slice := list Z) 0
              (start loader_5_3 0%nat) _ _ _ eq_refl) as (H1 & _ & H2 & _).
  split; [exact H1 | exact H2].
Defined.

(** C6 at the same loader: three batches for training, two for test. *)
Lemma loadData_batch_counts_5_3 :
  exists ds ds_test s',
    loadData (tf := tfZ) (start loader_5_3 0%nat) = (Ok (ds, ds_test), s') /\
    Z.of_nat (length ds) = 3 /\ Z.of_nat (length ds_test) = 2.
Proof.
  destruct (loadData_batch_counts (World := nat) (Slice := list Z) 0
              (start loader_5_3 0%nat)) as [Hcount Hret]; try reflexivity.
  destruct (Hret count_sampler [[0; 0]; [0; 0]; [0; 0]; [0; 0]; [0; 0]] 1%nat
              [[1; 1]; [1; 1]; [1; 1]] 2%nat)
    as (ds & ds_test & s' & Hrun); try reflexivity.
  exists ds, ds_test, s'. split; [exact Hrun |].
  destruct (Hcount ds ds_test s' Hrun) as (H1 & H2 & _).
  split; [exact H1 | exact H2].
Defined.

(** * Further properties of loadData *)

Section LoadDataFailures.

Context {World Arr : Type} {tf : Framework Arr}.

Implicit Types (s : State World Arr) (rows : DatasetLoader -> Z).



End LoadDataFailures.

Section ListExtras.

Context {World Slice elt : Type} (zero : elt).

Implicit Types (s : State World (list Slice)).

(** X5: over the list model of the framework, the pipelines loadData
    returns hold the rows the sampler returned, all of them, once each and
    in order: undoing the batches of the training pipeline gives back the
    array of the first sampler call, and undoing those of the test pipeline
    the array of the second. *)
Theorem loadData_list_round_trip s ds ds_test s' :
  loadData (tf := list_tf Slice zero) s = (Ok (ds, ds_test), s') ->
  exists c x w x' w',
    get_X0 (heap s) = PyCallable c /\
    body c (train_shape (heap s)) (world s) = (Ok x, w) /\
    body c (test_shape (heap s)) w = (Ok x', w') /\
    fst (unbatch ds) = x /\ fst (unbatch ds_test) = x' /\
    Z.of_nat (length x) = N_train (heap s) /\
    Z.of_nat (length x') = N_test (heap s).
Proof.
  intros H. pose proof H as Hrun. apply loadData_list_unbatch in H.
  destruct H as (c & x & w & x' & w' & Hg & Hb & Hb' & Hn & Hn' & Hu & Hu').
  apply loadData_Ok in Hrun.
  destruct Hrun as (c0 & x0 & w0 & x1 & w1 & Hg0 & _ & Hb0 & Hp0 & Hb1 & Hp1 & _).
  assert (c0 = c) by congruence. subst c0.
  rewrite Hb in Hb0. injection Hb0 as <- <-.
  rewrite Hb' in Hb1. injection Hb1 as <- <-.
  apply list_pipeline_Ok in Hp0, Hp1.
  destruct Hp0 as (_ & Hx & _), Hp1 as (_ & Hx' & _).
  exists c, x, w, x', w'. rewrite Hu, Hu'. cbn [fst].
  repeat split; try assumption; lia.
Qed.

End ListExtras.

(** X5 at the loader with five and three rows. *)
Lemma loadData_list_round_trip_5_3 :
  exists ds ds_test s',
    loadData (tf := tfZ) (start loader_5_3 0%nat) = (Ok (ds, ds_test), s') /\
    fst (unbatch ds) = [[0; 0]; [0; 0]; [0; 0]; [0; 0]; [0; 0]] /\
    fst (unbatch ds_test) = [[1; 1]; [1; 1]; [1; 1]].
Proof.
  do 3 eexists. split; [reflexivity |].
  destruct (loadData_list_round_trip (World := nat) (Slice := list Z) 0
              (start loader_5_3 0%nat) _ _ _ eq_refl)
    as (c & x & w & x' & w' & Hg & Hb & Hb' & Hu & Hu' & _).
  injection Hg as <-. injection Hb as <- <-. injection Hb' as <-.
  split; [exact Hu | exact Hu'].
Defined.


(** * The loader within the sampler's reach *)

Section SharedFacts.

Context {World Arr : Type} (self : World -> DataLoaderFromMap World Arr)
  {tf : Framework Arr}.

Implicit Types (s : Shared.State World).

(** A run of loadData whose sampler leaves the loader alone: the loader is
    as it was at the end, and a run that returns has entered the sampler
    with the two shapes of that loader. *)
Lemma shared_loadData_leaves s :
  (forall c, get_X0 (self (Shared.world s)) = PyCallable c -> Shared.leaves_loader self c) ->
  self (Shared.world (snd (Shared.loadData self s))) = self (Shared.world s) /\
  (forall p, fst (Shared.loadData self s) = Ok p ->
     Shared.calls (snd (Shared.loadData self s)) =
     Shared.calls s ++ [train_shape (self (Shared.world s)); test_shape (self (Shared.world s))]).
Proof.
  intros Hleave.
  unfold Shared.loadData, Shared.bind, Shared.attr, Shared.lift, Shared.call_kw,
    Shared.raise, Shared.ret, train_shape, test_shape.
  destruct (get_X0 (self (Shared.world s))) as [| z | c] eqn:Hg;
    try (split; [reflexivity | discriminate]).
  specialize (Hleave c eq_refl).
  destruct (accepts_kw c "shape") eqn:Hkw; [| split; [reflexivity | discriminate]].
  pose proof (Hleave (N_train (self (Shared.world s)), dim (self (Shared.world s)))
                (Shared.world s)) as H1.
  destruct (body c (N_train (self (Shared.world s)), dim (self (Shared.world s)))
              (Shared.world s)) as [[x | e] w].
  2: { split; [exact H1 | discriminate]. }
  cbn [fst snd Shared.world Shared.calls] in *. rewrite !H1.
  destruct (zeros (N_train (self (Shared.world s)), 1)) as [z | e];
    [| split; [exact H1 | discriminate]].
  destruct (from_tensor_slices (x, z)) as [sl | e];
    [| split; [exact H1 | discriminate]].
  destruct (batch sl (batch_size (self (Shared.world s)))) as [b | e];
    [| split; [exact H1 | discriminate]].
  destruct (prefetch b AUTOTUNE) as [ds | e];
    [| split; [exact H1 | discriminate]].
  simpl. rewrite ?H1, Hg. simpl. rewrite Hkw. simpl.
  match goal with
  | |- context [body c ?shape w] =>
      pose proof (Hleave shape w) as H2;
      destruct (body c shape w) as [[x' | e] w']
  end;
    simpl in *;
    assert (H3 : self w' = self (Shared.world s)) by congruence.
  2: { split; [exact H3 | discriminate]. }
  rewrite !H3.
  destruct (zeros (N_test (self (Shared.world s)), 1)) as [z' | e];
    [| split; [exact H3 | discriminate]].
  destruct (from_tensor_slices (x', z')) as [sl' | e];
    [| split; [exact H3 | discriminate]].
  destruct (batch sl' (batch_size (self (Shared.world s)))) as [b' | e];
    [| split; [exact H3 | discriminate]].
  destruct (prefetch b' AUTOTUNE) as [ds' | e];
    [| split; [exact H3 | discriminate]].
  split; [exact H3 |]. intros _ _. now rewrite <- app_assoc.
Qed.

End SharedFacts.

Section ApartInShared.

Context {World Arr : Type} {tf : Framework Arr}.

(** A sampler of the first part, seen in [Shared], leaves the loader
    alone. *)
Lemma apart_leaves_loader (g : PyObj World Arr) (c : Callable World Arr) :
  Shared.leaves_loader (apart_self g) (apart_callable c).
Proof. intros shape hw. reflexivity. Qed.

(** loadData of the first part is loadData over the shared heap, at a
    sampler that passes the loader on untouched. *)
Lemma loadData_in_shared (s : State World Arr) :
  Shared.loadData (apart_self (get_X0 (heap s))) (share s) =
  (fst (loadData s), share (snd (loadData s))).
Proof.
  unfold Shared.loadData, loadData, Shared.bind, bind, Shared.attr, attr,
    Shared.lift, lift, Shared.call_kw, call_kw, Shared.raise, raise,
    Shared.ret, ret, share, apart_self.
  simpl.
  destruct (get_X0 (heap s)) as [| z | c] eqn:Hg; simpl; try reflexivity.
  destruct (accepts_kw c "shape") eqn:Hkw; simpl; try reflexivity.
  destruct (body c (N_train (heap s), dim (heap s)) (world s)) as [[x | e] w];
    simpl; try reflexivity.
  destruct (zeros (N_train (heap s), 1)) as [z | e]; simpl; try reflexivity.
  destruct (from_tensor_slices (x, z)) as [sl | e]; simpl; try reflexivity.
  destruct (batch sl (batch_size (heap s))) as [b | e]; simpl; try reflexivity.
  destruct (prefetch b AUTOTUNE) as [ds | e]; simpl; try reflexivity.
  rewrite Hg. simpl. rewrite Hkw. simpl.
  destruct (body c (N_test (heap s), dim (heap s)) w) as [[x' | e] w'];
    simpl; try reflexivity.
  destruct (zeros (N_test (heap s), 1)) as [z' | e]; simpl; try reflexivity.
  destruct (from_tensor_slices (x', z')) as [sl' | e]; simpl; try reflexivity.
  destruct (batch sl' (batch_size (heap s))) as [b' | e]; simpl; try reflexivity.
  destruct (prefetch b' AUTOTUNE) as [ds' | e]; simpl; try reflexivity.
  all: now rewrite <- app_assoc.
Qed.

End ApartInShared.

Section SharedClaims.

Context {World Arr : Type} (self : World -> DataLoaderFromMap World Arr)
  {tf : Framework Arr}.

Implicit Types (s : Shared.State World).

(** C8, as amended: loadData leaves the loader as it is whenever the
    sampler does.  If get_X0 is a callable that leaves the loader alone
    (or is no callable at all), then after any call of loadData, returning
    or raising, the loader and so its attributes N_train, N_test,
    batch_size, get_X0 and dim are what they were, also after a second
    call; and when both calls return, the second enters get_X0 again, with
    the same two shapes as the first (nothing sampled before is kept). *)
Theorem loadData_frame s r1 s1 r2 s2 :
  (forall c, get_X0 (self (Shared.world s)) = PyCallable c -> Shared.leaves_loader self c) ->
  Shared.loadData self s = (r1, s1) ->
  Shared.loadData self s1 = (r2, s2) ->
  self (Shared.world s1) = self (Shared.world s) /\
  self (Shared.world s2) = self (Shared.world s) /\
  (forall p p', r1 = Ok p -> r2 = Ok p' ->
     Shared.calls s1 =
     Shared.calls s ++ [train_shape (self (Shared.world s)); test_shape (self (Shared.world s))] /\
     Shared.calls s2 =
     Shared.calls s1 ++ [train_shape (self (Shared.world s)); test_shape (self (Shared.world s))]).
Proof.
  intros Hleave H1 H2.
  destruct (shared_loadData_leaves self s Hleave) as [Hself1 Hcalls1].
  rewrite H1 in Hself1, Hcalls1. cbn [fst snd] in Hself1, Hcalls1.
  assert (Hleave1 : forall c, get_X0 (self (Shared.world s1)) = PyCallable c ->
                              Shared.leaves_loader self c).
  { intros c Hc. apply Hleave. now rewrite <- Hself1. }
  destruct (shared_loadData_leaves self s1 Hleave1) as [Hself2 Hcalls2].
  rewrite H2 in Hself2, Hcalls2. cbn [fst snd] in Hself2, Hcalls2.
  rewrite Hself1 in Hself2, Hcalls2.
  repeat split; try assumption.
  - subst r1. now apply (Hcalls1 p).
  - subst r2. now apply (Hcalls2 p').
Qed.

End SharedClaims.

(** C8, as the claim has it, fails.  The loader has N_train = 5,
    N_test = 3, batch_size = 2 and dim = 2, and its sampler sets the
    loader's N_test to 7 when called.  loadData returns, its second sampler
    call is made with the shape (7, 2), and N_test is 7 afterwards, not 3. *)
Lemma loadData_sampler_assigns_N_test :
  let s := Shared.mkState heap_5_3 [] in
  let run := Shared.loadData (self_with grabbing_sampler) (tf := tfZ) s in
  (exists p, fst run = Ok p) /\
  N_test (self_with grabbing_sampler (Shared.world s)) = 3 /\
  N_test (self_with grabbing_sampler (Shared.world (snd run))) = 7 /\
  N_test (self_with grabbing_sampler (Shared.world (snd run))) <>
  N_test (self_with grabbing_sampler (Shared.world s)) /\
  Shared.calls (snd run) = [(5, 2); (7, 2)].
Proof.
  intros s run. split; [eexists; reflexivity |].
  repeat split; try reflexivity. vm_compute. discriminate.
Qed.

(** The amended C8 at a sampler on the same heap that leaves the loader
    alone, called twice: the loader is untouched, the sampler is entered
    four times, and the second call samples afresh. *)
Lemma loadData_frame_quiet :
  let s := Shared.mkState heap_5_3 [] in
  let run1 := Shared.loadData (self_with quiet_sampler) (tf := tfZ) s in
  let run2 := Shared.loadData (self_with quiet_sampler) (tf := tfZ) (snd run1) in
  self_with quiet_sampler (Shared.world (snd run1)) = self_with quiet_sampler heap_5_3 /\
  self_with quiet_sampler (Shared.world (snd run2)) = self_with quiet_sampler heap_5_3 /\
  Shared.calls (snd run2) = [(5, 2); (3, 2); (5, 2); (3, 2)] /\
  fst run2 =
  Ok ([([[2; 2]; [2; 2]], [[0]; [0]]); ([[2; 2]; [2; 2]], [[0]; [0]]); ([[2; 2]], [[0]])],
      [([[3; 3]; [3; 3]], [[0]; [0]]); ([[3; 3]], [[0]])]).
Proof.
  intros s run1 run2.
  assert (Hleave : forall c,
             get_X0 (self_with quiet_sampler (Shared.world s)) = PyCallable c ->
             Shared.leaves_loader (self_with quiet_sampler) c).
  { intros c Hc shape w. injection Hc as <-. reflexivity. }
  destruct (loadData_frame (self_with quiet_sampler) (tf := tfZ) s _ _ _ _ Hleave
              (surjective_pairing run1) (surjective_pairing run2))
    as (Hself1 & Hself2 & Hcalls).
  repeat split; try assumption; reflexivity.
Defined.
